(** * RoomClient: the reconciliation controller of [src/room-client.ts]

    A shallow embedding of the [RoomClient] class.  The class orchestrates
    external collaborators (Automerge, the manymerge [Peer], the socket
    module, the offline store, the authorization call, lodash's [debounce]);
    those are taken as an interface ([Collaborators]) or as explicit parts of
    the [World] the controller runs in.

    Every method is a computation in a state-and-exception monad over the
    [World].  A JavaScript exception leaves the mutations made before the
    [throw] in place, so a computation returns an [Outcome] together with
    the world it reached.  The runtime is single threaded: an [await] is
    modelled as sequencing, each method running to completion, and the
    rejection of the promise of an [async] method is its [Threw] outcome.

    What can throw: [invariant], the [throw] statements of the class,
    [Automerge.load], [Automerge.merge], [Automerge.change], [authorize]
    and [JSON.parse].  The peer hands its outbound messages to
    [_sendMsgToSocket] during [notify] and [applyMessage], so those two
    fail when that callback fails.  Callbacks of the user return. *)

From stdpp Require Import base option strings gmap list.
From Stdlib Require Import Lia.

(** ** Basic data *)

Abbreviation ActorId := string (only parsing).
Abbreviation RoomId := string (only parsing).
Abbreviation Bytes := string (only parsing).

(** A socket object is identified by the order in which it was opened. *)
Abbreviation Socket := nat (only parsing).

(** A callback supplied by the user of the class; only its identity matters. *)
Abbreviation Callback := nat (only parsing).

(** What a JavaScript [throw] carries. *)
Inductive Exn : Type :=
  | JsError (message : string)             (* throw new Error(message) *)
  | InvariantViolation (message : string)  (* invariant(false, message) *)
  | Thrown (what : string).                (* raised inside a collaborator *)

Inductive Outcome (A : Type) : Type :=
  | Returned (a : A)
  | Threw (e : Exn).
Arguments Returned {A} a.
Arguments Threw {A} e.

(** JavaScript truthiness of a string, and of a possibly undefined string. *)
Definition truthy (s : string) : bool :=
  match s with EmptyString => false | String _ _ => true end.

Definition truthy_opt (o : option string) : bool :=
  match o with Some s => truthy s | None => false end.

(** The handlers the class hands to the socket module. *)
Inductive Handler : Type :=
  | H_error                        (* lines 138-141 *)
  | H_connect                      (* lines 144-147 *)
  | H_disconnect                   (* lines 150-156 *)
  | H_socketCallback (callback : Callback)  (* the closure of lines 208-251 *)
  | H_user (callback : Callback).  (* a connect/disconnect callback of the user *)

Record Room := { id : RoomId; state : Bytes }.
Record Session := { token : string }.
Record AuthParams := { room : Room; session : Session }.

(** ** The collaborators

    [Doc] stands for both [T] and [Doc<T>]: an Automerge document is a frozen
    [T] at run time.  Documents reach a collaborator as [option Doc] where
    the source passes [this._doc] (possibly [undefined], even under [!]). *)
Class Collaborators := {
  Doc : Type;
  Message : Type;
  Peer : Type;
  Mutator : Type;
  (* [{} as T] *)
  empty_object : Doc;
  (* Automerge.from(state, { actorId }) *)
  Automerge_from : Doc → ActorId → Doc;
  (* Automerge.load(bytes, { actorId? }) *)
  Automerge_load : Bytes → option ActorId → Outcome Doc;
  (* Automerge.merge(local, remote) *)
  Automerge_merge : option Doc → Doc → Outcome Doc;
  (* Automerge.save(doc) *)
  Automerge_save : Doc → Bytes;
  (* Automerge.change(doc, callback); [None] is [undefined] *)
  Automerge_change : option Doc → Mutator → Outcome (option Doc);
  (* new Peer(sendMsg) *)
  Peer_new : Peer;
  (* peer.notify(doc): the next peer and the messages it hands to sendMsg *)
  Peer_notify : Peer → option Doc → Peer * list Message;
  (* peer.applyMessage(msg, doc): next peer, messages sent, resulting doc *)
  Peer_applyMessage : Peer → Message → option Doc → Peer * list Message * option Doc;
  (* Map(msg.clock), line 235 *)
  clock_as_Map : Message → Message;
  (* authorize(url, reference) *)
  authorize : string → string → Outcome AuthParams;
  (* JSON.parse(data) as RoomPacket, read at the type the source asserts:
     meta.roomId and the possibly missing payload.msg; [Threw] is the
     SyntaxError of JSON.parse *)
  JSON_parse_packet : string → Outcome (RoomId * option Message);
  (* JSON.parse(data).message, line 139 *)
  JSON_parse_message : string → Outcome string;
  (* safeJsonStringify(room) *)
  safeJsonStringify : RoomId → Message → string;
  (* ROOM_SERICE_SOCKET_URL *)
  ROOM_SERICE_SOCKET_URL : string
}.

Section RoomClient.
Context {collab : Collaborators}.

(** ** The controller and its world *)

(** [debounce(saveOffline, 120)]: the arguments of the latest call and the
    time it was made, until the trailing edge fires. *)
Definition Debounced : Type := option (nat * (string * Doc)).

Record RoomClient := mkRoomClient {
  _peer : Peer;
  _reference : string;
  _authorizationUrl : string;
  _socket : option Socket;
  _roomId : option RoomId;
  _doc : option Doc;
  _actorId : option ActorId;
  _socketURL : string;
  _onUpdateSocketCallback : option Handler;
  _onConnectSocketCallback : option Callback;
  _onDisconnectSocketCallback : option Callback;
  _saveOffline_pending : Debounced
}.

(** Calls that leave the controller, newest first. *)
Inductive Event : Type :=
  | Console_warn (e : Exn)
  | Console_warn_text (s : string)
  | Console_error (e : Exn)
  | Console_error_text (s : string)
  | Sockets_newSocket (url authorization : string)
  | Sockets_on (s : Socket) (event : string) (h : Handler)
  | Sockets_emit (s : Socket) (event data : string)
  | Sockets_disconnect (s : Socket)
  | Peer_notified (d : option Doc)
  | Offline_setDoc (reference docId : string) (bytes : Bytes)
  | Callback_called (callback : Callback) (d : option Doc).

(** Modelled from the spec: the Identity Store of [./offline] (not under
    src/): get-or-create of one stable actor identifier, and get/set of a
    named snapshot per logical reference; absence is a valid result.
    [uuid] is the identifier the store would generate next. *)
Record Offline := mkOffline {
  actor : option ActorId;
  uuid : ActorId;
  snapshots : gmap (string * string) Bytes
}.

Record World := mkWorld {
  this : RoomClient;
  offline : Offline;
  sockets : nat;          (* sockets opened so far *)
  now : nat;              (* milliseconds *)
  trace : list Event
}.

(** ** The monad *)

Definition M (A : Type) : Type := World → Outcome A * World.

Definition ret {A} (a : A) : M A := λ w, (Returned a, w).

Definition bind {A B} (m : M A) (k : A → M B) : M B :=
  λ w, match m w with
       | (Returned a, w') => k a w'
       | (Threw e, w') => (Threw e, w')
       end.

Definition throw {A} (e : Exn) : M A := λ w, (Threw e, w).

(** [try { m } catch (err) { h err }] *)
Definition try_catch {A} (m : M A) (h : Exn → M A) : M A :=
  λ w, match m w with
       | (Returned a, w') => (Returned a, w')
       | (Threw e, w') => h e w'
       end.

(** A collaborator's result enters the computation. *)
Definition lift {A} (o : Outcome A) : M A := λ w, (o, w).

Definition get : M RoomClient := λ w, (Returned (this w), w).

(** The world after the events [evs] (newest first) were added. *)
Definition log (evs : list Event) (w : World) : World :=
  mkWorld (this w) (offline w) (sockets w) (now w) (evs ++ trace w).

(** The world after the controller's fields were changed by [f]. *)
Definition on_this (f : RoomClient → RoomClient) (w : World) : World :=
  mkWorld (f (this w)) (offline w) (sockets w) (now w) (trace w).

(** The world after the offline store was changed by [f]. *)
Definition on_offline (f : Offline → Offline) (w : World) : World :=
  mkWorld (this w) (f (offline w)) (sockets w) (now w) (trace w).

Definition remember_actor (a : ActorId) (o : Offline) : Offline :=
  mkOffline (Some a) (uuid o) (snapshots o).

Definition store_snapshot (reference docId : string) (bytes : Bytes)
  (o : Offline) : Offline :=
  mkOffline (actor o) (uuid o) (<[(reference, docId) := bytes]> (snapshots o)).

Definition emit_event (e : Event) : M unit :=
  λ w, (Returned tt, log [e] w).

Definition update (f : RoomClient → RoomClient) : M unit :=
  λ w, (Returned tt, on_this f w).

Notation "x <- m ;; k" := (bind m (λ x, k))
  (at level 100, m at next level, right associativity).
Notation "m ;; k" := (bind m (λ _, k))
  (at level 100, right associativity).

(** The messages of the errors the class raises itself. *)
Definition msg_no_roomId_on_publish : string :=
  "Expected a _roomId to exist when publishing. This is a sign of a broken client, if you're seeing this, please contact us.".

Definition msg_no_roomId_on_update : string :=
  "Expected a _roomId to be defined before we invoked the the onUpdate callback. This is a sign of a broken client, please contact us if you're seeing this.".

Definition msg_no_msg : string :=
  "The room's state object does not include an 'msg' attribute, which could signal a corrupted room. If you're seeing this in production, that's quite bad and represents a fixable bug within the SDK itself. Please let us know and we'll fix it immediately!".

Definition msg_corrupted_response : string :=
  "Response from RoomService API seems corrupted, aborting. Response: ".

Definition msg_onUpdate_twice : string :=
  "It looks like you've called onUpdate multiple times. Since this can cause quite severe performance issues if used incorrectly, we're not currently supporting this behavior. If you've got a use-case we haven't thought of, file a github issue and we may change this.".

Definition msg_no_actorId : string :=
  "The client is trying to regenerate a deleted document, but isn't able to access the cached actor id. This is probably a bug in the client, if you see this, we're incredibly sorry! Please let us know. In the meantime, you may be able work around this by ensuring 'await room.restore()' has finished before calling 'publishState'.".

(** invariant(cond, message) *)
Definition invariant (cond : bool) (message : string) : M unit :=
  if cond then ret tt else throw (InvariantViolation message).

(** Field assignments. *)
Definition set_peer (p : Peer) (c : RoomClient) : RoomClient :=
  mkRoomClient p (_reference c) (_authorizationUrl c) (_socket c) (_roomId c)
    (_doc c) (_actorId c) (_socketURL c) (_onUpdateSocketCallback c)
    (_onConnectSocketCallback c) (_onDisconnectSocketCallback c)
    (_saveOffline_pending c).

Definition set_socket (s : option Socket) (c : RoomClient) : RoomClient :=
  mkRoomClient (_peer c) (_reference c) (_authorizationUrl c) s (_roomId c)
    (_doc c) (_actorId c) (_socketURL c) (_onUpdateSocketCallback c)
    (_onConnectSocketCallback c) (_onDisconnectSocketCallback c)
    (_saveOffline_pending c).

Definition set_roomId (r : option RoomId) (c : RoomClient) : RoomClient :=
  mkRoomClient (_peer c) (_reference c) (_authorizationUrl c) (_socket c) r
    (_doc c) (_actorId c) (_socketURL c) (_onUpdateSocketCallback c)
    (_onConnectSocketCallback c) (_onDisconnectSocketCallback c)
    (_saveOffline_pending c).

Definition set_doc (d : option Doc) (c : RoomClient) : RoomClient :=
  mkRoomClient (_peer c) (_reference c) (_authorizationUrl c) (_socket c)
    (_roomId c) d (_actorId c) (_socketURL c) (_onUpdateSocketCallback c)
    (_onConnectSocketCallback c) (_onDisconnectSocketCallback c)
    (_saveOffline_pending c).

Definition set_actorId (a : option ActorId) (c : RoomClient) : RoomClient :=
  mkRoomClient (_peer c) (_reference c) (_authorizationUrl c) (_socket c)
    (_roomId c) (_doc c) a (_socketURL c) (_onUpdateSocketCallback c)
    (_onConnectSocketCallback c) (_onDisconnectSocketCallback c)
    (_saveOffline_pending c).

Definition set_onUpdateSocketCallback (h : option Handler) (c : RoomClient)
  : RoomClient :=
  mkRoomClient (_peer c) (_reference c) (_authorizationUrl c) (_socket c)
    (_roomId c) (_doc c) (_actorId c) (_socketURL c) h
    (_onConnectSocketCallback c) (_onDisconnectSocketCallback c)
    (_saveOffline_pending c).

Definition set_onConnectSocketCallback (h : option Callback) (c : RoomClient)
  : RoomClient :=
  mkRoomClient (_peer c) (_reference c) (_authorizationUrl c) (_socket c)
    (_roomId c) (_doc c) (_actorId c) (_socketURL c)
    (_onUpdateSocketCallback c) h (_onDisconnectSocketCallback c)
    (_saveOffline_pending c).

Definition set_onDisconnectSocketCallback (h : option Callback)
  (c : RoomClient) : RoomClient :=
  mkRoomClient (_peer c) (_reference c) (_authorizationUrl c) (_socket c)
    (_roomId c) (_doc c) (_actorId c) (_socketURL c)
    (_onUpdateSocketCallback c) (_onConnectSocketCallback c) h
    (_saveOffline_pending c).

Definition set_saveOffline_pending (p : Debounced) (c : RoomClient)
  : RoomClient :=
  mkRoomClient (_peer c) (_reference c) (_authorizationUrl c) (_socket c)
    (_roomId c) (_doc c) (_actorId c) (_socketURL c)
    (_onUpdateSocketCallback c) (_onConnectSocketCallback c)
    (_onDisconnectSocketCallback c) p.

(** ** The offline store *)

(** Offline.getOrCreateActor() *)
Definition Offline_getOrCreateActor : M ActorId :=
  λ w, match actor (offline w) with
       | Some a => (Returned a, w)
       | None =>
           let a := uuid (offline w) in
           (Returned a, on_offline (remember_actor a) w)
       end.

(** Offline.getDoc(reference, docId) *)
Definition Offline_getDoc (reference docId : string) : M (option Bytes) :=
  λ w, (Returned (snapshots (offline w) !! (reference, docId)), w).

(** Offline.setDoc(reference, docId, bytes) *)
Definition Offline_write (reference docId : string) (bytes : Bytes) : M unit :=
  λ w, (Returned tt,
        log [Offline_setDoc reference docId bytes]
          (on_offline (store_snapshot reference docId bytes) w)).

(** ** The socket module *)

(** Modelled from the spec: the transport module of [./socket] (not under
    src/).  Opening a session yields a new socket object; what the class
    asks of it afterwards (registering a handler, emitting, disconnecting)
    is recorded in the trace.

    Sockets.newSocket(url, { ... authorization ... }) *)
Definition Sockets_open (url authorization : string) : M Socket :=
  λ w, (Returned (sockets w),
        mkWorld (this w) (offline w) (S (sockets w)) (now w)
          (Sockets_newSocket url authorization :: trace w)).

(** ** Outbound messages (lines 304-325) *)

Definition _sendMsgToSocket (automergeMsg : Message) : M unit :=
  c <- get ;;
  match _socket c with
  | None => ret tt
  | Some s =>
      invariant (truthy_opt (_roomId c))
        msg_no_roomId_on_publish ;;
      emit_event
        (Sockets_emit s "sync_room_state"
           (safeJsonStringify (default "" (_roomId c)) automergeMsg))
  end.

Fixpoint send_all (msgs : list Message) : M unit :=
  match msgs with
  | [] => ret tt
  | m :: rest => _sendMsgToSocket m ;; send_all rest
  end.

(** this._peer.notify(doc): the peer calls back [_sendMsgToSocket] for each
    message it wants on the wire. *)
Definition notify (d : option Doc) : M unit :=
  c <- get ;;
  let '(p, msgs) := Peer_notify (_peer c) d in
  update (set_peer p) ;;
  emit_event (Peer_notified d) ;;
  send_all msgs.

(** ** Document lifecycle (lines 61-93) *)

Definition createDoc (actorId : ActorId) (state : option Doc) : M Doc :=
  c <- get ;;
  match _doc c with
  | Some d => ret d
  | None =>
      let defaultDoc := Automerge_from (default empty_object state) actorId in
      update (set_doc (Some defaultDoc)) ;;
      notify (Some defaultDoc) ;;
      ret defaultDoc
  end.

Definition readActorIdThenCreateDoc (state : option Doc) : M Doc :=
  actorId <- Offline_getOrCreateActor ;;
  update (set_actorId (Some actorId)) ;;
  createDoc actorId state.

(** ** Offline cache (lines 282-296) *)

Definition syncOfflineCache : M (option Doc) :=
  c <- get ;;
  data <- Offline_getDoc (_reference c) "default" ;;
  if truthy_opt data then
    actorId <- Offline_getOrCreateActor ;;
    offlineDoc <- lift (Automerge_load (default "" data) (Some actorId)) ;;
    update (set_doc (Some offlineDoc)) ;;
    notify (Some offlineDoc) ;;
    ret (Some offlineDoc)
  else
    ret (_doc c).

(** if (!this._doc) { await this.readActorIdThenCreateDoc(); } *)
Definition ensureDoc : M unit :=
  c <- get ;;
  match _doc c with
  | Some _ => ret tt
  | None => readActorIdThenCreateDoc None ;; ret tt
  end.


(** ** Debounced persistence (lines 53-58) *)

Definition wait : nat := 120.

Definition saveOffline (docId : string) (doc : Doc) : M unit :=
  c <- get ;;
  Offline_write (_reference c) docId (Automerge_save doc).

(** A call of the debounced function: it only records its arguments and
    restarts the timer. *)
Definition _saveOffline (docId : string) (doc : Doc) : M unit :=
  λ w, update (set_saveOffline_pending (Some (now w, (docId, doc)))) w.

(** [ms] milliseconds pass with no call into the controller; the trailing
    edge fires once [wait] milliseconds have passed since the latest call. *)
Definition elapse (ms : nat) : M unit :=
  λ w,
    let w' := mkWorld (this w) (offline w) (sockets w) (now w + ms) (trace w) in
    match _saveOffline_pending (this w') with
    | Some (t, (docId, doc)) =>
        if t + wait <=? now w'
        then (update (set_saveOffline_pending None) ;; saveOffline docId doc) w'
        else (Returned tt, w')
    | None => (Returned tt, w')
    end.

(** ** Construction (lines 45-59)

    The constructor returns at once; [readActorIdThenCreateDoc state], which
    it starts without awaiting, completes later ([constructor_task]). *)

Definition new_RoomClient (authUrl reference : string) : RoomClient :=
  mkRoomClient Peer_new reference authUrl None None None None
    ROOM_SERICE_SOCKET_URL None None None None.

Definition constructor_task (state : option Doc) : M Doc :=
  readActorIdThenCreateDoc state.

(** ** Going online (lines 98-190) *)

(** Sockets.on(socket, event, handler), also socket.on(event, handler) *)
Definition Sockets_register (s : Socket) (event : string) (h : Handler)
  : M unit :=
  emit_event (Sockets_on s event h).

(** Lines 124-170: record the room, open the socket, attach the handlers. *)
Definition openSession (params : AuthParams) : M unit :=
  update (set_roomId (Some (id (room params)))) ;;
  c <- get ;;
  s <- Sockets_open (_socketURL c) ("Bearer " +:+ token (session params)) ;;
  update (set_socket (Some s)) ;;
  Sockets_register s "error" H_error ;;
  Sockets_register s "connect" H_connect ;;
  Sockets_register s "disconnect" H_disconnect ;;
  c <- get ;;
  match _onUpdateSocketCallback c with
  | Some h => Sockets_register s "sync_room_state" h
  | None => ret tt
  end ;;
  match _onConnectSocketCallback c with
  | Some cb => Sockets_register s "connect" (H_user cb)
  | None => ret tt
  end ;;
  match _onDisconnectSocketCallback c with
  | Some cb => Sockets_register s "disconnect" (H_user cb)
  | None => ret tt
  end.

(** Lines 172-189: merge the server's state with the offline cache. *)
Definition mergeServerState (r : Room) : M Doc :=
  try_catch
    (remote <- lift (Automerge_load (state r) None) ;;
     local <- syncOfflineCache ;;
     merged <- lift (Automerge_merge local remote) ;;
     update (set_doc (Some merged)) ;;
     notify (Some merged) ;;
     ret merged)
    (λ err,
       emit_event (Console_error err) ;;
       ret empty_object).

Definition init : M (option Doc) :=
  ensureDoc ;;
  c <- get ;;
  match authorize (_authorizationUrl c) (_reference c) with
  | Threw err =>
      emit_event (Console_warn err) ;;
      syncOfflineCache ;;
      c <- get ;;
      ret (_doc c)
  | Returned params =>
      openSession params ;;
      doc <- mergeServerState (room params) ;;
      ret (Some doc)
  end.


(** ** The update handler (lines 202-260) *)

(** The closure [socketCallback] of [onUpdateDoc callback], run on [data].
    The closure is [async]: what it throws is the rejection of the promise
    it returns. *)
Definition socketCallback (callback : Callback) (data : string) : M unit :=
  packet <- lift (JSON_parse_packet data) ;;
  let '(meta_roomId, payload_msg) := packet in
  c <- get ;;
  if negb (truthy_opt (_roomId c)) then
    throw (JsError msg_no_roomId_on_update)
  else if negb (bool_decide (_roomId c = Some meta_roomId)) then
    ret tt
  else
    match payload_msg with
    | None =>
        throw (JsError msg_no_msg)
    | Some msg =>
        ensureDoc ;;
        let msg := clock_as_Map msg in
        c <- get ;;
        let '(p, sent, newDoc) := Peer_applyMessage (_peer c) msg (_doc c) in
        update (set_peer p) ;;
        send_all sent ;;
        match newDoc with
        | None =>
            throw (JsError (msg_corrupted_response +:+ data))
        | Some d =>
            update (set_doc (Some d)) ;;
            _saveOffline "default" d ;;
            emit_event (Callback_called callback (Some d))
        end
    end.

Definition onUpdateDoc (callback : Callback) : M unit :=
  c <- get ;;
  invariant (negb (bool_decide (is_Some (_onUpdateSocketCallback c))))
    msg_onUpdate_twice ;;
  match _socket c with
  | None => update (set_onUpdateSocketCallback (Some (H_socketCallback callback)))
  | Some s => Sockets_register s "sync_room_state" (H_socketCallback callback)
  end.

(** Lines 262-280 *)
Definition onConnect (callback : Callback) : M unit :=
  c <- get ;;
  match _socket c with
  | None => update (set_onConnectSocketCallback (Some callback))
  | Some s => Sockets_register s "connect" (H_user callback)
  end.

Definition onDisconnect (callback : Callback) : M unit :=
  c <- get ;;
  match _socket c with
  | None => update (set_onDisconnectSocketCallback (Some callback))
  | Some s => Sockets_register s "disconnect" (H_user callback)
  end.

(** ** Publishing (lines 327-345) *)

Definition publishDoc (callback : Mutator) : M Doc :=
  c <- get ;;
  changed <- lift (Automerge_change (_doc c) callback) ;;
  newDoc <-
    match changed with
    | Some d => ret d
    | None =>
        invariant (truthy_opt (_actorId c))
          msg_no_actorId ;;
        createDoc (default "" (_actorId c)) None
    end ;;
  update (set_doc (Some newDoc)) ;;
  _saveOffline "default" newDoc ;;
  notify (Some newDoc) ;;
  ret newDoc.

(** ** The handlers the socket module calls back *)


End RoomClient.

Notation "x <- m ;; k" := (bind m (λ x, k))
  (at level 100, m at next level, right associativity).
Notation "m ;; k" := (bind m (λ _, k))
  (at level 100, right associativity).

(** * Vocabulary of the statements *)

Section Vocabulary.
Context {collab : Collaborators}.

Implicit Types (w : World) (c : RoomClient) (d : Doc).

(** [_sendMsgToSocket] can only fail on a controller that has a socket but no
    room identity. *)
Definition can_send (c : RoomClient) : bool :=
  match _socket c with
  | None => true
  | Some _ => truthy_opt (_roomId c)
  end.

(** What [send_all msgs] puts on the wire, newest first. *)
Definition emitted (c : RoomClient) (msgs : list Message) : list Event :=
  match _socket c with
  | None => []
  | Some s =>
      rev (map (λ m, Sockets_emit s "sync_room_state"
                       (safeJsonStringify (default "" (_roomId c)) m)) msgs)
  end.

(** [keeps f m]: running [m] does not change what [f] observes of the world,
    whether [m] returns or throws. *)
Definition keeps {X A} (f : World → X) (m : M A) : Prop :=
  ∀ w, f (m w).2 = f w.

(** Observations that do not look at the trace, nor at the peer. *)
Definition blind_to_trace {X} (f : World → X) : Prop :=
  ∀ evs w, f (log evs w) = f w.

Definition blind_to_peer {X} (f : World → X) : Prop :=
  ∀ p w, f (on_this (set_peer p) w) = f w.

(** The part of the world that only [init] and [disconnect] may change. *)
Definition session_of w : option Socket * option RoomId * nat :=
  (_socket (this w), _roomId (this w), sockets w).

(** The controller's current document, as an observation of the world. *)
Definition current_doc w : option Doc := _doc (this w).

(** The events of [Sockets.emit]. *)
Definition is_emit (e : Event) : Prop :=
  match e with Sockets_emit _ _ _ => True | _ => False end.


(** What the constructor fixed for good. *)
Definition config_of w : string * string :=
  (_reference (this w), _authorizationUrl (this w)).

(** [grows m]: whatever [m] does, it only adds events to the trace. *)
Definition grows {A} (m : M A) : Prop :=
  ∀ w, ∃ evs, trace (m w).2 = evs ++ trace w.






End Vocabulary.

(** * A concrete set of collaborators

    Used to run the controller on concrete inputs.  A document is the actor
    it was made under and its content; a snapshot is the content; the bytes
    [corrupt] do not deserialize; a message carries the content it
    installs, and the relay rejects the message [garbage]. *)
Module Demo.

Definition demo_load (bytes : string) (a : option string)
  : Outcome (string * string) :=
  if bool_decide (bytes = "corrupt")
  then Threw (Thrown "SyntaxError: cannot load")
  else Returned (default "" a, bytes).

Definition demo_merge (local : option (string * string))
  (remote : string * string) : Outcome (string * string) :=
  match local with
  | Some l =>
      if bool_decide (remote.2 = "unmergeable")
      then Threw (Thrown "RangeError: cannot merge")
      else Returned (l.1, l.2 +:+ "&" +:+ remote.2)
  | None => Threw (Thrown "TypeError: undefined document")
  end.

(** A mutator is the content it writes; [None] is a mutator for which
    [change] answers [undefined]. *)
Definition demo_change (d : option (string * string)) (f : option string)
  : Outcome (option (string * string)) :=
  match d, f with
  | Some d, Some content => Returned (Some (d.1, content))
  | _, _ => Returned None
  end.

Definition demo_notify (p : nat) (d : option (string * string))
  : nat * list string :=
  (S p, match d with Some d => [d.2] | None => [] end).

Definition demo_applyMessage (p : nat) (m : string)
  (d : option (string * string)) : nat * list string * option (string * string) :=
  (S p, [],
   if bool_decide (m = "garbage") then None
   else Some (from_option fst "" d, m)).

(** A packet is written [room|msg]; without a bar there is no [msg]. *)
Fixpoint demo_split (s : string) : string * option string :=
  match s with
  | EmptyString => (EmptyString, None)
  | String c rest =>
      if bool_decide (String c EmptyString = "|") then (EmptyString, Some rest)
      else let '(r, m) := demo_split rest in (String c r, m)
  end.

Definition demo_parse (data : string) : Outcome (string * option string) :=
  if bool_decide (data = "") then Threw (Thrown "SyntaxError: unexpected end")
  else Returned (demo_split data).

Definition demo (reply : Outcome AuthParams) : Collaborators := {|
  Doc := string * string;
  Message := string;
  Peer := nat;
  Mutator := option string;
  empty_object := ("", "{}");
  Automerge_from := λ st a, (a, st.2);
  Automerge_load := demo_load;
  Automerge_merge := demo_merge;
  Automerge_save := snd;
  Automerge_change := demo_change;
  Peer_new := 0;
  Peer_notify := demo_notify;
  Peer_applyMessage := demo_applyMessage;
  clock_as_Map := λ m, m;
  authorize := λ _ _, reply;
  JSON_parse_packet := demo_parse;
  JSON_parse_message := Returned;
  safeJsonStringify := λ r m, r +:+ "|" +:+ m;
  ROOM_SERICE_SOCKET_URL := "wss://socket.test"
|}.

Definition granted (roomId : string) (bytes : string) : Outcome AuthParams :=
  Returned {| room := {| id := roomId; state := bytes |};
              session := {| token := "t" |} |}.

Definition denied : Outcome AuthParams := Threw (Thrown "NetworkError").

(** The scenarios: authorization granted for room [r1] with a server
    snapshot, or denied. *)
Definition online (bytes : string) : Collaborators := demo (granted "r1" bytes).
Definition offline_only : Collaborators := demo denied.

(** A fresh installation running a new controller for [room1]. *)
Definition world0 {C : Collaborators} : World :=
  mkWorld (new_RoomClient "https://auth.test" "room1")
    (mkOffline None "actor-1" ∅) 0 0 [].

(** The controller once its constructor's task has created the document
    from the seed state. *)
Definition seeded (C : Collaborators) (seed : Doc) : World :=
  (constructor_task (Some seed) world0).2.

(** The controller seeded with [{count:0}] when authorization is denied. *)
Definition seeded_offline : @World offline_only :=
  seeded offline_only ("", "{count:0}").

(** The controller of the spec's example: seeded with [{count:0}], one
    local publish saved to the offline cache, then [init] granted. *)
Definition stale : Collaborators := online "{count:0}".

Definition went_online : @World stale :=
  ((publishDoc (collab := stale) (Some "{count:1}") ;; elapse 120 ;; init)
     (seeded stale ("", "{count:0}"))).2.

(** The same controller just after [init] was granted. *)
Definition just_online : @World stale :=
  (init (collab := stale) (seeded stale ("", "{count:0}"))).2.


(** The offline store holds a snapshot that does not deserialize. *)
Definition corrupt_cache : @World offline_only :=
  on_offline (store_snapshot "room1" "default" "corrupt") seeded_offline.

(** The server's snapshot cannot be merged. *)
Definition unmergeable : Collaborators := online "unmergeable".

(** The server's snapshot does not deserialize. *)
Definition undecodable : Collaborators := online "corrupt".

Definition seeded_undecodable : @World undecodable :=
  seeded undecodable ("", "{count:0}").


End Demo.

(** * Properties *)

Section Properties.
Context {collab : Collaborators}.

Implicit Types (w : World) (c : RoomClient) (d : Doc).

(** ** Outbound messages *)

Lemma log_nil w : log [] w = w.
Proof. by destruct w. Qed.

Lemma log_log evs evs' w : log evs (log evs' w) = log (evs ++ evs') w.
Proof. unfold log; simpl. by rewrite app_assoc. Qed.

Lemma send_all_ok msgs w :
  can_send (this w) = true →
  send_all msgs w = (Returned tt, log (emitted (this w) msgs) w).
Proof.
  revert w. induction msgs as [|m rest IH]; intros w Hs.
  - simpl. unfold ret, emitted. destruct (_socket (this w)); by rewrite log_nil.
  - simpl. unfold bind at 1. unfold _sendMsgToSocket, bind, get.
    unfold can_send, emitted in *. destruct (_socket (this w)) as [s|] eqn:Es.
    + rewrite Hs. simpl. rewrite IH; simpl; rewrite Es; [|done].
      by rewrite log_log.
    + simpl. rewrite IH; simpl; rewrite Es; [|done]. done.
Qed.

(** ** Observations an operation keeps *)

Section Keeps.
Context {X : Type} (f : World → X).

Lemma keeps_ret {A} (a : A) : keeps f (ret a).
Proof. by intros w. Qed.

Lemma keeps_throw {A} (e : Exn) : keeps f (throw (A := A) e).
Proof. by intros w. Qed.

Lemma keeps_lift {A} (o : Outcome A) : keeps f (lift o).
Proof. by intros w. Qed.

Lemma keeps_get : keeps f get.
Proof. by intros w. Qed.

Lemma keeps_bind {A B} (m : M A) (k : A → M B) :
  keeps f m → (∀ a, keeps f (k a)) → keeps f (bind m k).
Proof.
  intros Hm Hk w. unfold bind. specialize (Hm w).
  destruct (m w) as [[a|e] w1]; simpl in *; [|done].
  by rewrite Hk.
Qed.

Lemma keeps_try_catch {A} (m : M A) (h : Exn → M A) :
  keeps f m → (∀ e, keeps f (h e)) → keeps f (try_catch m h).
Proof.
  intros Hm Hh w. unfold try_catch. specialize (Hm w).
  destruct (m w) as [[a|e] w1]; simpl in *; [done|].
  by rewrite Hh.
Qed.

Lemma keeps_invariant cond message : keeps f (invariant cond message).
Proof. by destruct cond; intros w. Qed.

End Keeps.

Create HintDb keeps.
#[local] Hint Resolve keeps_ret keeps_throw keeps_lift keeps_get
  keeps_invariant : keeps.

Lemma keeps_emit_event {X} (f : World → X) e :
  blind_to_trace f → keeps f (emit_event e).
Proof. intros Hf w. apply Hf. Qed.

Lemma keeps_getOrCreateActor {X} (f : World → X) :
  (∀ a w, f (on_offline (remember_actor a) w) = f w) →
  keeps f Offline_getOrCreateActor.
Proof.
  intros Hf w. unfold Offline_getOrCreateActor.
  destruct (actor (offline w)); [done|apply Hf].
Qed.

Lemma keeps_getDoc {X} (f : World → X) reference docId :
  keeps f (Offline_getDoc reference docId).
Proof. by intros w. Qed.

#[local] Hint Resolve keeps_emit_event keeps_getOrCreateActor keeps_getDoc
  : keeps.

Ltac keeps_step :=
  first
    [ apply keeps_bind; [|intros ?]
    | apply keeps_try_catch; [|intros ?]
    | solve [auto with keeps]
    | solve [intros ?; reflexivity]
    | match goal with
      | |- keeps _ (match ?x with _ => _ end) => destruct x
      | |- keeps _ (let '(_, _) := ?x in _) => destruct x
      end ].

Lemma send_all_keeps {X} (f : World → X) msgs :
  blind_to_trace f → keeps f (send_all msgs).
Proof.
  intros Hf. induction msgs as [|m rest IH]; simpl; [by intros w|].
  apply keeps_bind; [|done].
  unfold _sendMsgToSocket. repeat keeps_step.
Qed.

Lemma notify_keeps {X} (f : World → X) (d : option Doc) :
  blind_to_trace f → blind_to_peer f → keeps f (notify d).
Proof.
  intros Hf Hp. unfold notify. apply keeps_bind; [auto with keeps|].
  intros c. destruct (Peer_notify (_peer c) d) as [p msgs].
  apply keeps_bind; [intros w; apply Hp|]. intros _.
  apply keeps_bind; [auto with keeps|]. intros _.
  by apply send_all_keeps.
Qed.

Lemma session_blind_to_trace : blind_to_trace session_of.
Proof. done. Qed.

Lemma session_blind_to_peer : blind_to_peer session_of.
Proof. done. Qed.

#[local] Hint Resolve session_blind_to_trace session_blind_to_peer
  send_all_keeps notify_keeps : keeps.


Lemma ensureDoc_keeps_session : keeps session_of ensureDoc.
Proof.
  unfold ensureDoc, readActorIdThenCreateDoc, createDoc.
  repeat keeps_step.
Qed.

Lemma syncOfflineCache_keeps_session : keeps session_of syncOfflineCache.
Proof. unfold syncOfflineCache. repeat keeps_step. Qed.

(** ** The current document *)

Lemma doc_blind_to_trace : blind_to_trace current_doc.
Proof. done. Qed.

Lemma doc_blind_to_peer : blind_to_peer current_doc.
Proof. done. Qed.

#[local] Hint Resolve doc_blind_to_trace doc_blind_to_peer : keeps.

Lemma send_all_trace msgs w :
  ∃ evs, trace (send_all msgs w).2 = evs ++ trace w.
Proof.
  revert w. induction msgs as [|m rest IH]; intros w; simpl.
  - by exists [].
  - unfold bind at 1. unfold _sendMsgToSocket, bind, get, invariant.
    destruct (_socket (this w)) as [s|]; simpl.
    + destruct (truthy_opt (_roomId (this w))); simpl; [|by exists []].
      destruct (IH (log [Sockets_emit s "sync_room_state"
        (safeJsonStringify (default "" (_roomId (this w))) m)] w)) as [evs ->].
      eexists (evs ++ [_]). simpl. by rewrite <- app_assoc.
    + apply IH.
Qed.

Lemma notify_logged (d' : option Doc) w :
  Peer_notified d' ∈ trace (notify d' w).2.
Proof.
  unfold notify, bind, get, update, emit_event.
  destruct (Peer_notify (_peer (this w)) d') as [p msgs]; simpl.
  match goal with |- context [send_all msgs ?w1] =>
    destruct (send_all_trace msgs w1) as [evs Hevs];
    destruct (send_all msgs w1) as [[[]|e] w2] end;
  simpl in *; rewrite Hevs; set_solver.
Qed.

Lemma notify_ok (d' : option Doc) w :
  can_send (this w) = true →
  notify d' w =
    (Returned tt,
     log (emitted (this w) (Peer_notify (_peer (this w)) d').2
            ++ [Peer_notified d'])
       (on_this (set_peer (Peer_notify (_peer (this w)) d').1) w)).
Proof.
  intros Hs. unfold notify, bind, get, update, emit_event.
  destruct (Peer_notify (_peer (this w)) d') as [p msgs]; simpl.
  rewrite send_all_ok; [|done]. by rewrite log_log.
Qed.

(** *** The ensure-document step *)

(** C10. [createDoc] is idempotent.  With a current document it returns that
    document and leaves the whole world as it was: nothing is created and the
    relay is not notified.  Without one it installs the default document made
    from the seed state under the given actor, announces it to the relay,
    and returns it (the call can only fail in the relay's send, on a
    controller that cannot send).  Either way the controller then holds one
    current document, which every later [createDoc] returns untouched. *)
Theorem createDoc_idempotent (actorId : ActorId) (st : option Doc) w :
  let fresh := Automerge_from (default empty_object st) actorId in
  let w' := (createDoc actorId st w).2 in
  match _doc (this w) with
  | Some d => createDoc actorId st w = (Returned d, w)
  | None =>
      _doc (this w') = Some fresh
      ∧ Peer_notified (Some fresh) ∈ trace w'
      ∧ (if can_send (this w)
         then (createDoc actorId st w).1 = Returned fresh
         else True)
  end
  ∧ ∃ d, _doc (this w') = Some d
         ∧ ∀ actorId' st', createDoc actorId' st' w' = (Returned d, w').
Proof.
  intros fresh w'.
  assert (Hcur : ∀ w1 d, _doc (this w1) = Some d →
            ∀ a s, createDoc a s w1 = (Returned d, w1)).
  { intros w1 d Hd a s. unfold createDoc, bind, get. by rewrite Hd. }
  destruct (_doc (this w)) as [d|] eqn:Hd.
  - pose proof (Hcur w d Hd actorId st) as Heq. split; [done|].
    exists d. subst w'. rewrite Heq. simpl. split; [done|]. by apply Hcur.
  - assert (Hw' : w' = (notify (Some fresh) (on_this (set_doc (Some fresh)) w)).2).
    { subst w'. unfold createDoc, bind at 1, get. rewrite Hd.
      unfold bind, update. fold fresh.
      by destruct (notify _ _) as [[[]|e] w1]. }
    assert (Hdoc : _doc (this w') = Some fresh).
    { rewrite Hw'.
      etrans; [apply (notify_keeps current_doc); auto with keeps|done]. }
    split; [split; [done|split]|].
    + rewrite Hw'. apply notify_logged.
    + destruct (can_send (this w)) eqn:Hs; [|done].
      unfold createDoc, bind at 1, get. rewrite Hd.
      unfold bind, update. fold fresh. by rewrite notify_ok.
    + exists fresh. split; [done|]. by apply Hcur.
Qed.

(** ** The update handler *)

(** C5. An envelope addressed to another room is dropped in silence: on a
    controller that has a room identity, the handler returns without
    throwing and the world is exactly as before, so the current document is
    unchanged, no save is scheduled and the user's callback is not called. *)
Theorem socketCallback_other_room (callback : Callback) (data : string)
    (roomId : RoomId) (msg : option Message) w :
  JSON_parse_packet data = Returned (roomId, msg) →
  truthy_opt (_roomId (this w)) = true →
  _roomId (this w) ≠ Some roomId →
  socketCallback callback data w = (Returned tt, w).
Proof.
  intros Hparse Hroom Hne.
  unfold socketCallback, bind, lift, get. rewrite Hparse, Hroom. simpl.
  by rewrite bool_decide_eq_false_2.
Qed.

(** C6. An envelope for the controller's own room that carries no [msg]
    makes the handler throw, and the world is exactly as before: no document
    was touched, nothing is scheduled for saving, no callback is called. *)
Theorem socketCallback_missing_msg (callback : Callback) (data : string)
    (roomId : RoomId) w :
  JSON_parse_packet data = Returned (roomId, None) →
  _roomId (this w) = Some roomId →
  socketCallback callback data w =
    (Threw (JsError (if truthy roomId then msg_no_msg
                     else msg_no_roomId_on_update)), w).
Proof.
  intros Hparse Hroom.
  unfold socketCallback, bind, lift, get. rewrite Hparse, Hroom. simpl.
  destruct (truthy roomId); simpl; [|done].
  by rewrite bool_decide_eq_true_2.
Qed.

(** C4. When the relay rejects an inbound message, the handler throws an
    error whose message ends with the raw payload; the current document is
    still the one the message was applied against, the pending save is the
    one there was before, the offline store is untouched, and all that was
    added to the trace is what the relay itself put on the wire: no write to
    the store and no call of the user's callback. *)
Theorem socketCallback_rejected (callback : Callback) (data : string)
    (roomId : RoomId) (msg : Message) d w :
  JSON_parse_packet data = Returned (roomId, Some msg) →
  truthy roomId = true →
  _roomId (this w) = Some roomId →
  _doc (this w) = Some d →
  (Peer_applyMessage (_peer (this w)) (clock_as_Map msg) (Some d)).2 = None →
  ∃ w' evs,
    socketCallback callback data w =
      (Threw (JsError (msg_corrupted_response +:+ data)), w')
    ∧ _doc (this w') = Some d
    ∧ _saveOffline_pending (this w') = _saveOffline_pending (this w)
    ∧ offline w' = offline w
    ∧ trace w' = evs ++ trace w
    ∧ Forall is_emit evs.
Proof.
  intros Hparse Htruthy Hroom Hd Hrej.
  destruct (Peer_applyMessage (_peer (this w)) (clock_as_Map msg) (Some d))
    as [[p sent] newDoc] eqn:Happly.
  simpl in Hrej. subst newDoc.
  exists (log (emitted (this w) sent) (on_this (set_peer p) w)),
         (emitted (this w) sent).
  split; [|repeat split; try done].
  - unfold socketCallback, bind at 1, lift. rewrite Hparse.
    unfold bind at 1, get. rewrite Hroom. simpl. rewrite Htruthy. simpl.
    rewrite bool_decide_eq_true_2 by done. simpl.
    unfold bind at 1, ensureDoc, bind at 1, get. rewrite Hd.
    unfold ret, bind at 1, get. rewrite Hd, Happly.
    unfold bind at 1, update. unfold bind.
    rewrite send_all_ok; [done|].
    unfold can_send; simpl. destruct (_socket (this w)); [|done].
    by rewrite Hroom.
  - unfold emitted. destruct (_socket (this w)); [|done].
    apply Forall_rev, Forall_map, Forall_forall. by intros.
Qed.

(** ** Debounced persistence *)





(** ** Publishing *)






(** ** Going online *)

Lemma ensureDoc_keeps_config : keeps config_of ensureDoc.
Proof.
  unfold ensureDoc, readActorIdThenCreateDoc, createDoc.
  repeat keeps_step. by apply send_all_keeps.
Qed.

Lemma createDoc_sets_doc (actorId : ActorId) (st : option Doc) w :
  is_Some (_doc (this (createDoc actorId st w).2)).
Proof.
  unfold createDoc, bind at 1, get.
  destruct (_doc (this w)) as [d|] eqn:Hd; simpl; [by rewrite Hd|].
  unfold bind, update.
  match goal with |- context [notify ?x ?w1] =>
    pose proof (notify_keeps current_doc x doc_blind_to_trace
                  doc_blind_to_peer w1) as Hn;
    destruct (notify x w1) as [[[]|e] w2] end;
  simpl in *; unfold current_doc in Hn; rewrite Hn; by eexists.
Qed.

Lemma ensureDoc_sets_doc w : is_Some (_doc (this (ensureDoc w).2)).
Proof.
  unfold ensureDoc, bind at 1, get.
  destruct (_doc (this w)) as [d|] eqn:Hd; simpl; [by rewrite Hd|].
  unfold bind at 1, readActorIdThenCreateDoc, bind at 1.
  destruct (Offline_getOrCreateActor w) as [[a|e] w1] eqn:Ha.
  - unfold bind at 1, update.
    match goal with |- context [createDoc ?a ?s ?w2] =>
      pose proof (createDoc_sets_doc a s w2) as Hc;
      destruct (createDoc a s w2) as [[d|e] w3] end; done.
  - unfold Offline_getOrCreateActor in Ha.
    by destruct (actor (offline w)).
Qed.

Lemma syncOfflineCache_returns_doc w r w' :
  syncOfflineCache w = (Returned r, w') → _doc (this w') = r.
Proof.
  unfold syncOfflineCache, bind at 1, get.
  unfold bind at 1, Offline_getDoc.
  destruct (truthy_opt _); [|by intros [= <- <-]].
  unfold bind at 1.
  destruct (Offline_getOrCreateActor w) as [[a|e] w1]; [|done].
  unfold bind at 1, lift.
  destruct (Automerge_load _ _) as [offlineDoc|e]; [|done].
  unfold bind, update.
  match goal with |- context [notify ?x ?w1] =>
    pose proof (notify_keeps current_doc x doc_blind_to_trace
                  doc_blind_to_peer w1) as Hn;
    destruct (notify x w1) as [[[]|e] w2] end; [|done].
  intros [= <- <-]. apply Hn.
Qed.

Lemma openSession_returns (params : AuthParams) w :
  ∃ w1,
    openSession params w = (Returned tt, w1)
    ∧ _socket (this w1) = Some (sockets w)
    ∧ _roomId (this w1) = Some (id (room params))
    ∧ _doc (this w1) = _doc (this w)
    ∧ sockets w1 = S (sockets w).
Proof.
  unfold openSession, bind, update, get, Sockets_open, Sockets_register,
    emit_event, ret. simpl.
  destruct (_onUpdateSocketCallback (this w)),
    (_onConnectSocketCallback (this w)),
    (_onDisconnectSocketCallback (this w)); by eexists.
Qed.

Lemma grows_pure {A} (m : M A) : (∀ w, trace (m w).2 = trace w) → grows m.
Proof. intros Hm w. exists []. apply Hm. Qed.

Lemma grows_bind {A B} (m : M A) (k : A → M B) :
  grows m → (∀ a, grows (k a)) → grows (bind m k).
Proof.
  intros Hm Hk w. unfold bind. destruct (Hm w) as [evs Hevs].
  destruct (m w) as [[a|e] w1]; simpl in *; [|by exists evs].
  destruct (Hk a w1) as [evs' Hevs']. exists (evs' ++ evs).
  by rewrite Hevs', Hevs, app_assoc.
Qed.

Lemma grows_emit_event e : grows (emit_event e).
Proof. intros w. by exists [e]. Qed.

Lemma grows_send_all msgs : grows (send_all msgs).
Proof. intros w. apply send_all_trace. Qed.

Lemma grows_notify (d' : option Doc) : grows (notify d').
Proof.
  unfold notify. apply grows_bind; [by apply grows_pure|]. intros c.
  destruct (Peer_notify (_peer c) d') as [p msgs].
  apply grows_bind; [by apply grows_pure|]. intros _.
  apply grows_bind; [apply grows_emit_event|]. intros _.
  apply grows_send_all.
Qed.

Lemma grows_getOrCreateActor : grows Offline_getOrCreateActor.
Proof.
  apply grows_pure. intros w. unfold Offline_getOrCreateActor.
  by destruct (actor (offline w)).
Qed.

Lemma grows_syncOfflineCache : grows syncOfflineCache.
Proof.
  unfold syncOfflineCache.
  apply grows_bind; [by apply grows_pure|]. intros c.
  apply grows_bind; [by apply grows_pure|]. intros data.
  destruct (truthy_opt data); [|by apply grows_pure].
  apply grows_bind; [apply grows_getOrCreateActor|]. intros a.
  apply grows_bind; [by apply grows_pure|]. intros offlineDoc.
  apply grows_bind; [by apply grows_pure|]. intros _.
  apply grows_bind; [apply grows_notify|]. intros _.
  by apply grows_pure.
Qed.

Lemma syncOfflineCache_returns_some w r w' :
  is_Some (_doc (this w)) →
  syncOfflineCache w = (Returned r, w') → is_Some r.
Proof.
  intros Hd. unfold syncOfflineCache, bind at 1, get.
  unfold bind at 1, Offline_getDoc.
  destruct (truthy_opt _); [|by intros [= <- <-]].
  unfold bind at 1.
  destruct (Offline_getOrCreateActor w) as [[a|e] w1]; [|done].
  unfold bind at 1, lift.
  destruct (Automerge_load _ _) as [offlineDoc|e]; [|done].
  unfold bind, update.
  destruct (notify _ _) as [[[]|e] w2]; [|done].
  intros [= <- <-]. by eexists.
Qed.

Lemma init_unfold w :
  init w =
    match ensureDoc w with
    | (Returned _, w0) =>
        match authorize (_authorizationUrl (this w0)) (_reference (this w0)) with
        | Threw err =>
            (emit_event (Console_warn err) ;;
             syncOfflineCache ;;
             c <- get ;;
             ret (_doc c)) w0
        | Returned params =>
            (openSession params ;;
             doc <- mergeServerState (room params) ;;
             ret (Some doc)) w0
        end
    | (Threw e, w0) => (Threw e, w0)
    end.
Proof.
  unfold init, bind at 1. destruct (ensureDoc w) as [[[]|e] w0]; [|done].
  unfold bind at 1, get. by destruct (authorize _ _).
Qed.

Lemma ensureDoc_config w :
  authorize (_authorizationUrl (this (ensureDoc w).2))
    (_reference (this (ensureDoc w).2))
  = authorize (_authorizationUrl (this w)) (_reference (this w)).
Proof.
  pose proof (ensureDoc_keeps_config w) as Hc. unfold config_of in Hc.
  by injection Hc as -> ->.
Qed.

(** C2 (amended).  When the authorization collaborator fails,
    [init] logs the error as a warning and runs the offline-cache logic of
    [restore]; whenever that logic completes, [init] returns without
    throwing, and what it returns is the controller's current document,
    which exists; the socket, the room identity and the number of sockets
    opened are what they were before the call. *)
Theorem init_auth_failure w (err : Exn) (r : option Doc) w1 :
  authorize (_authorizationUrl (this w)) (_reference (this w)) = Threw err →
  (ensureDoc ;; emit_event (Console_warn err) ;; syncOfflineCache) w
    = (Returned r, w1) →
  init w = (Returned r, w1)
  ∧ r = _doc (this w1)
  ∧ is_Some r
  ∧ session_of w1 = session_of w
  ∧ Console_warn err ∈ trace w1.
Proof.
  intros Hauth Hpath. rewrite init_unfold.
  pose proof (ensureDoc_config w) as Hcfg.
  pose proof (ensureDoc_sets_doc w) as Hdoc.
  pose proof (ensureDoc_keeps_session w) as Hsess.
  unfold bind at 1 in Hpath.
  destruct (ensureDoc w) as [[[]|e] w0]; [|done]. simpl in *.
  rewrite Hcfg, Hauth.
  unfold bind at 1, emit_event in Hpath. unfold bind at 1, emit_event.
  pose proof (syncOfflineCache_keeps_session (log [Console_warn err] w0)) as Hs.
  destruct (grows_syncOfflineCache (log [Console_warn err] w0)) as [evs Hevs].
  unfold bind at 1. rewrite Hpath in *. simpl in *.
  pose proof (syncOfflineCache_returns_doc _ _ _ Hpath) as Hr.
  split; [by rewrite <- Hr|]. split; [done|].
  split; [by apply (syncOfflineCache_returns_some (log _ w0) _ _ Hdoc Hpath)|].
  split; [by rewrite Hs|].
  rewrite Hevs. set_solver.
Qed.

(** *** Merging the server's state *)

Lemma mergeServerState_load_fails (r : Room) w (err : Exn) :
  Automerge_load (state r) None = Threw err →
  mergeServerState r w = (Returned empty_object, log [Console_error err] w).
Proof.
  intros Hload. unfold mergeServerState, try_catch, bind at 1, lift.
  by rewrite Hload.
Qed.

Lemma mergeServerState_merge_fails (r : Room) w (remote : Doc)
    (local : option Doc) w2 (err : Exn) :
  Automerge_load (state r) None = Returned remote →
  syncOfflineCache w = (Returned local, w2) →
  Automerge_merge local remote = Threw err →
  mergeServerState r w = (Returned empty_object, log [Console_error err] w2).
Proof.
  intros Hload Hsync Hmerge. unfold mergeServerState, try_catch, bind at 1, lift.
  rewrite Hload. unfold bind at 1. rewrite Hsync.
  unfold bind at 1, lift. by rewrite Hmerge.
Qed.



(** The steps of [init] before the merge, on its success path. *)
Lemma init_online_unfold w (params : AuthParams) :
  authorize (_authorizationUrl (this w)) (_reference (this w))
    = Returned params →
  init w =
    (ensureDoc ;; openSession params ;;
     doc <- mergeServerState (room params) ;; ret (Some doc)) w.
Proof.
  intros Hauth. pose proof (ensureDoc_config w) as Hcfg.
  unfold init, bind, get.
  destruct (ensureDoc w) as [[[]|e] w0]; [|done]. simpl in Hcfg.
  by rewrite Hcfg, Hauth.
Qed.


(** C1 (amended).  When, on the success path of [init], loading
    the server's state throws, or merging it with the offline document
    throws, the error is caught and logged and [init] returns the empty
    object without throwing.  The controller's current document is not
    reset: it is the document the controller held when the step failed. *)
Theorem init_merge_failure w (params : AuthParams) (err : Exn) w2 :
  authorize (_authorizationUrl (this w)) (_reference (this w))
    = Returned params →
  (Automerge_load (state (room params)) None = Threw err
   ∧ (ensureDoc ;; openSession params) w = (Returned tt, w2))
  ∨ (∃ (remote : Doc) (local : option Doc),
       Automerge_load (state (room params)) None = Returned remote
       ∧ (ensureDoc ;; openSession params ;; syncOfflineCache) w
           = (Returned local, w2)
       ∧ Automerge_merge local remote = Threw err) →
  ∃ w',
    init w = (Returned (Some empty_object), w')
    ∧ trace w' = Console_error err :: trace w2
    ∧ _doc (this w') = _doc (this w2)
    ∧ is_Some (_doc (this w')).
Proof.
  intros Hauth Hfail. exists (log [Console_error err] w2).
  rewrite (init_online_unfold _ _ Hauth).
  pose proof (ensureDoc_sets_doc w) as Hdoc.
  destruct Hfail as [[Hload Hpath]|(remote & local & Hload & Hpath & Hmerge)];
    unfold bind at 1 in Hpath; unfold bind at 1;
    destruct (ensureDoc w) as [[[]|e] w0]; try done;
    destruct (openSession_returns params w0)
      as (w1 & Hopen & _ & _ & Hkeep & _); simpl in Hdoc.
  - rewrite Hopen in Hpath. injection Hpath as <-.
    unfold bind. rewrite Hopen, (mergeServerState_load_fails _ _ _ Hload).
    repeat split. simpl. by rewrite Hkeep.
  - unfold bind at 1 in Hpath. unfold bind. rewrite Hopen in *.
    rewrite (mergeServerState_merge_fails _ _ _ _ _ _ Hload Hpath Hmerge).
    repeat split. simpl.
    eapply syncOfflineCache_returns_some; [|rewrite Hpath].
    + by rewrite Hkeep.
    + f_equal. by apply syncOfflineCache_returns_doc in Hpath as ->.
Qed.

(** ** Registering the update callback *)

(** Registered while offline, the handler is remembered, and any later
    registration is refused at once, whatever happened in between to the
    rest of the controller. *)
Lemma onUpdateDoc_offline (callback : Callback) w :
  _onUpdateSocketCallback (this w) = None →
  _socket (this w) = None →
  onUpdateDoc callback w =
    (Returned tt,
     on_this (set_onUpdateSocketCallback (Some (H_socketCallback callback))) w).
Proof.
  intros Hcb Hs. unfold onUpdateDoc, bind, get, invariant. by rewrite Hcb, Hs.
Qed.

Lemma onUpdateDoc_registered (callback : Callback) (h : Handler) w :
  _onUpdateSocketCallback (this w) = Some h →
  onUpdateDoc callback w = (Threw (InvariantViolation msg_onUpdate_twice), w).
Proof.
  intros Hcb. unfold onUpdateDoc, bind, get, invariant. by rewrite Hcb.
Qed.

(** Registered while a socket exists, the handler goes straight to the
    socket and the controller does not remember that one was registered. *)
Lemma onUpdateDoc_online (callback : Callback) (s : Socket) w :
  _onUpdateSocketCallback (this w) = None →
  _socket (this w) = Some s →
  onUpdateDoc callback w =
    (Returned tt,
     log [Sockets_on s "sync_room_state" (H_socketCallback callback)] w).
Proof.
  intros Hcb Hs. unfold onUpdateDoc, bind, get, invariant. by rewrite Hcb, Hs.
Qed.

(** So with a socket, a second registration is accepted like the first. *)
Lemma onUpdateDoc_online_twice (cb1 cb2 : Callback) (s : Socket) w :
  _onUpdateSocketCallback (this w) = None →
  _socket (this w) = Some s →
  (onUpdateDoc cb1 ;; onUpdateDoc cb2) w =
    (Returned tt,
     log [Sockets_on s "sync_room_state" (H_socketCallback cb2);
          Sockets_on s "sync_room_state" (H_socketCallback cb1)] w).
Proof.
  intros Hcb Hs. unfold bind at 1. rewrite (onUpdateDoc_online _ s) by done.
  by rewrite (onUpdateDoc_online _ s).
Qed.

(** ** The states a controller can reach

    The hypotheses of the theorems above on the controller's state ([can_send],
    a current document once a room identity is recorded) hold in every state
    reached from a new controller by calls of its methods, by the handlers it
    registered and by the passing of time. *)



























(** * Further properties of the class *)

(** ** Publishing (lines 304-345) *)



(** ** Callbacks registered before a socket exists (lines 162-170, 253-280) *)

Lemma onConnect_offline (callback : Callback) w :
  _socket (this w) = None →
  onConnect callback w =
    (Returned tt, on_this (set_onConnectSocketCallback (Some callback)) w).
Proof. intros Hs. unfold onConnect, bind, get. by rewrite Hs. Qed.

Lemma onDisconnect_offline (callback : Callback) w :
  _socket (this w) = None →
  onDisconnect callback w =
    (Returned tt, on_this (set_onDisconnectSocketCallback (Some callback)) w).
Proof. intros Hs. unfold onDisconnect, bind, get. by rewrite Hs. Qed.

Lemma openSession_pending (params : AuthParams) w (h : Handler)
    (c d : Callback) :
  _onUpdateSocketCallback (this w) = Some h →
  _onConnectSocketCallback (this w) = Some c →
  _onDisconnectSocketCallback (this w) = Some d →
  ∃ w',
    openSession params w = (Returned tt, w')
    ∧ trace w' =
        [Sockets_on (sockets w) "disconnect" (H_user d);
         Sockets_on (sockets w) "connect" (H_user c);
         Sockets_on (sockets w) "sync_room_state" h;
         Sockets_on (sockets w) "disconnect" H_disconnect;
         Sockets_on (sockets w) "connect" H_connect;
         Sockets_on (sockets w) "error" H_error;
         Sockets_newSocket (_socketURL (this w))
           ("Bearer " +:+ token (session params))]
        ++ trace w
    ∧ _socket (this w') = Some (sockets w)
    ∧ _roomId (this w') = Some (id (room params)).
Proof.
  intros Hu Hc Hd.
  unfold openSession, bind, update, get, Sockets_open, Sockets_register,
    emit_event, ret. simpl. rewrite Hu, Hc, Hd. by eexists.
Qed.

(** X2. Callbacks registered while offline are attached when [init] opens the
    session: after the three handlers of the class itself, the update
    handler, then the connect callback, then the disconnect callback, all on
    the socket opened with the session token as bearer credential. *)
Theorem deferred_callbacks_attached (u c d : Callback) (params : AuthParams) w :
  _socket (this w) = None →
  _onUpdateSocketCallback (this w) = None →
  ∃ w',
    (onUpdateDoc u ;; onConnect c ;; onDisconnect d ;; openSession params) w
      = (Returned tt, w')
    ∧ trace w' =
        [Sockets_on (sockets w) "disconnect" (H_user d);
         Sockets_on (sockets w) "connect" (H_user c);
         Sockets_on (sockets w) "sync_room_state" (H_socketCallback u);
         Sockets_on (sockets w) "disconnect" H_disconnect;
         Sockets_on (sockets w) "connect" H_connect;
         Sockets_on (sockets w) "error" H_error;
         Sockets_newSocket (_socketURL (this w))
           ("Bearer " +:+ token (session params))]
        ++ trace w
    ∧ _socket (this w') = Some (sockets w)
    ∧ _roomId (this w') = Some (id (room params)).
Proof.
  intros Hsock Hcb. unfold bind at 1. rewrite onUpdateDoc_offline by done.
  unfold bind at 1. rewrite onConnect_offline by done.
  unfold bind at 1. rewrite onDisconnect_offline by done.
  match goal with |- context [openSession params ?w3] =>
    destruct (openSession_pending params w3 (H_socketCallback u) c d)
      as (w' & Hrun & Htrace & Hs & Hr); [reflexivity..|] end.
  exists w'. by rewrite Hrun.
Qed.

End Properties.

(** * The properties on concrete runs *)

Import Demo.

(** *** The update handler, on the controller of the spec's example *)

Lemma socketCallback_other_room_witness :
  socketCallback (collab := stale) 7 "r2|{count:5}" went_online
    = (Returned tt, went_online).
Proof.
  apply (socketCallback_other_room (collab := stale) 7 "r2|{count:5}" "r2"
           (Some "{count:5}") went_online).
  - by vm_compute.
  - by vm_compute.
  - vm_compute. discriminate.
Defined.

Lemma socketCallback_missing_msg_witness :
  socketCallback (collab := stale) 7 "r1" went_online
    = (Threw (JsError msg_no_msg), went_online).
Proof.
  apply (socketCallback_missing_msg (collab := stale) 7 "r1" "r1" went_online);
    by vm_compute.
Defined.

Lemma socketCallback_rejected_witness :
  ∃ (w' : @World stale) (evs : list (@Event stale)),
    socketCallback (collab := stale) 7 "r1|garbage" went_online
      = (Threw (JsError (msg_corrupted_response +:+ "r1|garbage")), w')
    ∧ _doc (this w') = Some ("actor-1", "{count:1}&{count:0}")
    ∧ _saveOffline_pending (this w') = _saveOffline_pending (this went_online)
    ∧ offline w' = offline went_online
    ∧ trace w' = evs ++ trace went_online
    ∧ Forall is_emit evs.
Proof.
  apply (socketCallback_rejected (collab := stale) 7 "r1|garbage" "r1" "garbage"
           ("actor-1", "{count:1}&{count:0}") went_online);
    by vm_compute.
Defined.

(** *** Debounce *)


(** *** Publishing on the [undefined] answer of [change] *)



(** *** [init] *)

(** Authorization denied, nothing cached. *)
Lemma init_auth_failure_witness :
  init (collab := offline_only) seeded_offline
    = (Returned (Some ("actor-1", "{count:0}")),
       log [Console_warn (Thrown "NetworkError")] seeded_offline)
  ∧ Some ("actor-1", "{count:0}")
      = _doc (this (log [Console_warn (Thrown "NetworkError")] seeded_offline))
  ∧ is_Some (Some ("actor-1", "{count:0}"))
  ∧ session_of (log [Console_warn (Thrown "NetworkError")] seeded_offline)
      = session_of seeded_offline
  ∧ Console_warn (Thrown "NetworkError")
      ∈ trace (log [Console_warn (Thrown "NetworkError")] seeded_offline).
Proof.
  apply (init_auth_failure (collab := offline_only) seeded_offline
           (Thrown "NetworkError") (Some ("actor-1", "{count:0}"))
           (log [Console_warn (Thrown "NetworkError")] seeded_offline));
    by vm_compute.
Defined.

(** C2, counterexample.  Authorization is denied while the cached snapshot
    does not deserialize: [init] throws the error of [load]. *)
Lemma init_auth_failure_can_throw :
  authorize (Collaborators := offline_only)
    (_authorizationUrl (this corrupt_cache))
    (_reference (this corrupt_cache)) = Threw (Thrown "NetworkError")
  ∧ (init (collab := offline_only) corrupt_cache).1
      = Threw (Thrown "SyntaxError: cannot load").
Proof. split; by vm_compute. Qed.


(** The server's snapshot cannot be merged with the offline document. *)
Lemma init_merge_failure_witness :
  ∃ w' : @World unmergeable,
    init (collab := unmergeable) (seeded unmergeable ("", "{count:0}"))
      = (Returned (Some ("", "{}")), w')
    ∧ trace w' =
        Console_error (Thrown "RangeError: cannot merge")
          :: trace
               ((openSession (collab := unmergeable)
                   {| room := {| id := "r1"; state := "unmergeable" |};
                      session := {| token := "t" |} |})
                  (seeded unmergeable ("", "{count:0}"))).2
    ∧ _doc (this w') = Some ("actor-1", "{count:0}")
    ∧ is_Some (_doc (this w')).
Proof.
  apply (init_merge_failure (collab := unmergeable)
           (seeded unmergeable ("", "{count:0}"))
           {| room := {| id := "r1"; state := "unmergeable" |};
              session := {| token := "t" |} |}
           (Thrown "RangeError: cannot merge")).
  - by vm_compute.
  - right. exists ("", "unmergeable"), (Some ("actor-1", "{count:0}")).
    split; [|split]; by vm_compute.
Defined.

(** C1, counterexample.  Authorization is granted and the server's snapshot
    does not deserialize: [init] returns the empty object, and the
    controller still holds the document it had, which is not the empty
    object. *)
Lemma init_merge_failure_keeps_doc :
  authorize (Collaborators := undecodable)
    (_authorizationUrl (this seeded_undecodable))
    (_reference (this seeded_undecodable)) = granted "r1" "corrupt"
  ∧ Automerge_load (Collaborators := undecodable)
      (state {| id := "r1"; state := "corrupt" |}) None
      = Threw (Thrown "SyntaxError: cannot load")
  ∧ (init (collab := undecodable) seeded_undecodable).1
      = Returned (Some (empty_object (Collaborators := undecodable)))
  ∧ _doc (this (init (collab := undecodable) seeded_undecodable).2)
      = Some ("actor-1", "{count:0}")
  ∧ _doc (this (init (collab := undecodable) seeded_undecodable).2)
      ≠ Some (empty_object (Collaborators := undecodable)).
Proof. vm_compute. repeat split; discriminate. Qed.

(** *** Registering the update callback twice *)

(** C7 at a failing input: on a controller that went online, a second
    [onUpdateDoc] returns like the first, and both handlers are attached to
    the socket. *)
Theorem onUpdateDoc_twice_online_accepted :
  _socket (this just_online) = Some 0
  ∧ _onUpdateSocketCallback (this just_online) = None
  ∧ (onUpdateDoc (collab := stale) 1 ;; onUpdateDoc (collab := stale) 2)
      just_online =
      (Returned tt,
       log [Sockets_on 0 "sync_room_state" (H_socketCallback 2);
            Sockets_on 0 "sync_room_state" (H_socketCallback 1)] just_online).
Proof. split; [|split]; by vm_compute. Qed.

(** *** Publishing *)


(** *** Callbacks *)

Lemma deferred_callbacks_attached_witness :
  ∃ w' : @World stale,
    (onUpdateDoc (collab := stale) 1 ;; onConnect 2 ;; onDisconnect 3 ;;
     openSession {| room := {| id := "r1"; state := "{count:0}" |};
                    session := {| token := "t" |} |})
      (seeded stale ("", "{count:0}"))
      = (Returned tt, w')
    ∧ trace w' =
        [Sockets_on 0 "disconnect" (H_user 3);
         Sockets_on 0 "connect" (H_user 2);
         Sockets_on 0 "sync_room_state" (H_socketCallback 1);
         Sockets_on 0 "disconnect" H_disconnect;
         Sockets_on 0 "connect" H_connect;
         Sockets_on 0 "error" H_error;
         Sockets_newSocket "wss://socket.test" "Bearer t"]
        ++ trace (seeded stale ("", "{count:0}"))
    ∧ _socket (this w') = Some 0
    ∧ _roomId (this w') = Some "r1".
Proof.
  apply (deferred_callbacks_attached (collab := stale) 1 2 3
           {| room := {| id := "r1"; state := "{count:0}" |};
              session := {| token := "t" |} |}
           (seeded stale ("", "{count:0}"))); by vm_compute.
Defined.

(** *** Reachable states *)




